(** * d3rlpy.logging.wandb_adapter: the Weights & Biases logger adapter

    A shallow embedding of [src/d3rlpy/logging/wandb_adapter.py].  The module
    holds no algorithm: every method forwards to a collaborator that lives
    outside the repository (the [wandb] client, the [algo] object, Python's
    [pathlib]).  The embedding therefore keeps

    - a heap of Python objects (adapters and factories), so that object
      identity and attribute assignment are visible;
    - the list of calls made on the collaborators, in program order;
    - an exception outcome, so that [raise] and propagation are visible.

    What a collaborator answers is not fixed here: it is read from a
    [Client], which every theorem quantifies over. *)

From Stdlib Require Import ZArith Ascii String DecimalString DecimalZ DecimalPos.
From stdpp Require Import gmap strings list fin_maps.

Local Open Scope Z_scope.
Local Open Scope string_scope.
Local Open Scope list_scope.

(** ** Python values *)

(** A Python [float] is an IEEE 754 binary64; the adapter never computes
    with one, it only forwards it, so the 64 bits are all that matters. *)
Record float64 := Float64 { float_bits : Z }.

(** The values a hyperparameter or metric mapping can hold ([Any]). *)
Inductive PyVal :=
| VNone
| VBool (b : bool)
| VInt (z : Z)
| VFloat (f : float64)
| VStr (s : string).

(** [Dict[str, Any]]: equality of Python dicts ignores insertion order. *)
Abbreviation Dict := (gmap string PyVal).

(** [str(n)] for a Python [int], as used by an f-string replacement field. *)
Definition str_int (n : Z) : string := NilZero.string_of_int (Z.to_int n).

(** ** Exceptions *)

(** Exception classes: the builtin ones the module meets, and any other
    class, given by its name and its direct bases as its [class] statement
    lists them (the base [Exception] is left out). *)
Inductive ExcClass :=
| ImportError
| ModuleNotFoundError
| NameError
| AttributeError
| OtherError (name : string) (bases : list ExcClass).

(** An exception instance: class and message; [ExcFrom] also carries the
    [__cause__] that [raise ... from e] sets. *)
Inductive Exn :=
| Exc (cls : ExcClass) (msg : string)
| ExcFrom (cls : ExcClass) (msg : string) (cause : Exn).

Definition exn_class (e : Exn) : ExcClass :=
  match e with Exc c _ | ExcFrom c _ _ => c end.

Definition exn_msg (e : Exn) : string :=
  match e with Exc _ m | ExcFrom _ m _ => m end.

Definition exn_cause (e : Exn) : option Exn :=
  match e with Exc _ _ => None | ExcFrom _ _ c => Some c end.

(** [issubclass(c, ImportError)]: the class itself, [ModuleNotFoundError],
    and every class that reaches one of them through its bases. *)
Fixpoint derives_ImportError (c : ExcClass) : bool :=
  match c with
  | ImportError | ModuleNotFoundError => true
  | NameError | AttributeError => false
  | OtherError _ bases => existsb derives_ImportError bases
  end.

(** [isinstance(e, ImportError)], the test of [except ImportError]. *)
Definition is_ImportError (e : Exn) : bool :=
  derives_ImportError (exn_class e).

(** ** pathlib

    [pathlib] belongs to Python's library, not to the repository; this is
    [PurePosixPath] as far as the adapter uses it: construction from a
    string, the [/] operator with a string on the right, and [str]. *)
Module Pathlib.

Record Path := MkPath { root : string; parts : list string }.

Definition slash : Ascii.ascii := "/"%char.

(** [s.split(sep)] for a one-character separator. *)
Fixpoint split_on (sep : Ascii.ascii) (s : string) : list string :=
  match s with
  | EmptyString => [""]
  | String c s' =>
      if Ascii.eqb c sep then "" :: split_on sep s'
      else match split_on sep s' with
           | [] => [String c ""]
           | w :: ws => String c w :: ws
           end
  end.

(** [posixpath.splitroot]: no leading slash, no root; exactly two leading
    slashes, the root ["//"]; otherwise the root ["/"]. *)
Definition splitroot (s : string) : string * string :=
  match s with
  | String c1 s1 =>
      if Ascii.eqb c1 slash then
        match s1 with
        | String c2 s2 =>
            if Ascii.eqb c2 slash then
              match s2 with
              | String c3 _ =>
                  if Ascii.eqb c3 slash then ("/", s1) else ("//", s2)
              | EmptyString => ("//", s2)
              end
            else ("/", s1)
        | EmptyString => ("/", s1)
        end
      else ("", s)
  | EmptyString => ("", s)
  end.

(** A component is kept when it is neither empty nor ["."]. *)
Definition keep_part (x : string) : bool :=
  negb (String.eqb x "") && negb (String.eqb x ".").

(** [Path(s)]. *)
Definition of_str (s : string) : Path :=
  let '(r, rel) := splitroot s in
  MkPath r (List.filter keep_part (split_on slash rel)).

(** [p / key]: a rooted right operand replaces the left one, otherwise
    its components are appended. *)
Definition truediv (p : Path) (key : string) : Path :=
  let k := of_str key in
  if String.eqb (root k) "" then MkPath (root p) (parts p ++ parts k)
  else k.

(** ["/".join(l)]. *)
Fixpoint join_parts (l : list string) : string :=
  match l with
  | [] => ""
  | [x] => x
  | x :: l' => x +:+ "/" +:+ join_parts l'
  end.

(** [str(p)]. *)
Definition to_str (p : Path) : string :=
  match root p, parts p with
  | EmptyString, [] => "."
  | r, l => r +:+ join_parts l
  end.

End Pathlib.

Abbreviation Path := Pathlib.Path.

(** ** Collaborators and the calls made on them *)

(** Identity of a run object handed out by [wandb.init]. *)
Definition RunHandle := nat.

(** Identity of the object passed as [algo] (anything with [save(path)]). *)
Definition AlgoRef := nat.

(** One entry per call (or attribute read) on a collaborator. *)
Inductive Call :=
| CInit (project : option string) (name : option string)
    (* wandb.init(project=project, name=name) *)
| CConfigUpdate (run : RunHandle) (params : Dict)
    (* run.config.update(params) *)
| CLog (run : RunHandle) (payload : Dict) (step : Z)
    (* run.log(payload, step=step) *)
| CFinish (run : RunHandle)
    (* run.finish() *)
| CRunDir
    (* wandb.run.dir, the directory of the process-wide current run *)
| CSave (algo : AlgoRef) (path : Path).
    (* algo.save(path) *)

(** What the collaborators answer, given the calls made so far.  Any of
    them may raise; [wandb.init] returns a run, [wandb.run.dir] a string,
    and the results of the other calls are discarded by the adapter. *)
Record Client := MkClient {
  import_wandb : option Exn;
    (* the exception [import wandb] raises, if it raises *)
  init_reply : list Call -> option string -> option string -> Exn + RunHandle;
  run_dir_reply : list Call -> Exn + string;
  call_raises : list Call -> Call -> option Exn
}.

(** ** Objects and program state *)

Definition Addr := nat.

(** Instances of the two classes of the module, with their attributes. *)
Inductive Obj :=
| OAdapter (run : RunHandle) (model_dir : option Path)
| OFactory (_project : option string) (_model_dir : option Path).

Record State := MkState { heap : list Obj; calls : list Call }.

Inductive Outcome (A : Type) :=
| Returned (a : A)
| Raised (e : Exn).

Arguments Returned {A} a.
Arguments Raised {A} e.

(** A Python computation: reads the collaborators, threads the state and
    either returns or raises. *)
Definition Py (A : Type) : Type := Client -> State -> Outcome A * State.

Definition ret {A} (a : A) : Py A := fun _ s => (Returned a, s).

Definition raise {A} (e : Exn) : Py A := fun _ s => (Raised e, s).

Definition bind {A B} (m : Py A) (k : A -> Py B) : Py B :=
  fun W s =>
    match m W s with
    | (Returned a, s') => k a W s'
    | (Raised e, s') => (Raised e, s')
    end.

Declare Scope py_scope.
Delimit Scope py_scope with py.
Notation "'do' x <- m ;; k" := (bind m (fun x => k))
  (at level 10, x name, m at level 99, k at level 200) : py_scope.
Notation "'do' ' p <- m ;; k" := (bind m (fun x => match x with p => k end))
  (at level 10, p pattern, m at level 99, k at level 200) : py_scope.
Notation "'exec' m ;; k" := (bind m (fun _ => k))
  (at level 10, m at level 99, k at level 200) : py_scope.
Local Open Scope py_scope.

(** Appends a call to the log and hands back the calls made before it. *)
Definition record (c : Call) : Py (list Call) :=
  fun _ s => (Returned (calls s), MkState (heap s) (calls s ++ [c])).

(** A call whose result the adapter discards. *)
Definition invoke (c : Call) : Py unit :=
  fun W => (do before <- record c ;;
            match call_raises W before c with
            | Some e => raise e
            | None => ret tt
            end) W.

(** [wandb.init(project=project, name=name)]. *)
Definition wandb_init (project name : option string) : Py RunHandle :=
  fun W => (do before <- record (CInit project name) ;;
            match init_reply W before project name with
            | inl e => raise e
            | inr r => ret r
            end) W.

(** [wandb.run.dir]. *)
Definition wandb_run_dir : Py string :=
  fun W => (do before <- record CRunDir ;;
            match run_dir_reply W before with
            | inl e => raise e
            | inr d => ret d
            end) W.

(** Instance creation: the new object gets the next address. *)
Definition new (o : Obj) : Py Addr :=
  fun _ s => (Returned (length (heap s)), MkState (heap s ++ [o]) (calls s)).

Definition no_attribute (name : string) : Exn :=
  Exc AttributeError ("object has no attribute '" +:+ name +:+ "'").

(** Attribute reads on [self]. *)
Definition get_run (self : Addr) : Py RunHandle :=
  fun W s =>
    match heap s !! self with
    | Some (OAdapter r _) => ret r W s
    | _ => raise (no_attribute "run") W s
    end.

Definition get_model_dir (self : Addr) : Py (option Path) :=
  fun W s =>
    match heap s !! self with
    | Some (OAdapter _ d) => ret d W s
    | _ => raise (no_attribute "model_dir") W s
    end.

Definition get_factory (self : Addr) : Py (option string * option Path) :=
  fun W s =>
    match heap s !! self with
    | Some (OFactory p d) => ret (p, d) W s
    | _ => raise (no_attribute "_project") W s
    end.

(** ** The module's namespace

    Names bound at module level by lines 1-9 and 58 of the source: the
    three imports and the two classes.  [import wandb] is executed inside
    [LoggerWanDBAdapter.__init__], so it binds [wandb] as a local of that
    function only. *)
Definition module_globals : list string :=
  [ "Any"; "Dict"; "Optional"; "Path";
    "LoggerAdapter"; "LoggerAdapterFactory"; "SaveProtocol";
    "__all__"; "LoggerWanDBAdapter"; "WanDBAdapterFactory" ].

(** Reading a name that is not a local of the running function: module
    globals, then builtins ([wandb] is not a builtin), else [NameError]. *)
Definition load_global (n : string) : Py unit :=
  if bool_decide (n ∈ module_globals) then ret tt
  else raise (Exc NameError ("name '" +:+ n +:+ "' is not defined")).

(** ** class LoggerWanDBAdapter *)
Module LoggerWanDBAdapter.

(** [f"model_{epoch}.d3"]. *)
Definition model_file (epoch : Z) : string :=
  "model_" +:+ str_int epoch +:+ ".d3".

(** [try: import wandb / except ImportError as e: raise
    ImportError("Please install wandb") from e].  An exception of another
    class is not caught. *)
Definition import_guard : Py unit :=
  fun W =>
    match import_wandb W with
    | None => ret tt W
    | Some e =>
        if is_ImportError e
        then raise (ExcFrom ImportError "Please install wandb" e) W
        else raise e W
    end.

(** [LoggerWanDBAdapter(project, model_dir, experiment_name)]: runs
    [__init__] and yields the instance, which no one can reach when
    [__init__] raises. *)
Definition __init__ (project : option string) (model_dir : option Path)
    (experiment_name : option string) : Py Addr :=
  exec import_guard ;;
  do run <- wandb_init project experiment_name ;;
  new (OAdapter run model_dir).

Definition write_params (self : Addr) (params : Dict) : Py PyVal :=
  do run <- get_run self ;;
  exec invoke (CConfigUpdate run params) ;;
  ret VNone.

Definition before_write_metric (self : Addr) (epoch step : Z) : Py PyVal :=
  ret VNone.

Definition write_metric (self : Addr) (epoch step : Z) (name : string)
    (value : float64) : Py PyVal :=
  do run <- get_run self ;;
  exec invoke (CLog run (<["epoch" := VInt epoch]> (<[name := VFloat value]> ∅))
                    step) ;;
  ret VNone.

Definition after_write_metric (self : Addr) (epoch step : Z) : Py PyVal :=
  ret VNone.

Definition save_model (self : Addr) (epoch : Z) (algo : AlgoRef) : Py PyVal :=
  do d <- get_model_dir self ;;
  do model_dir <- match d with
               | Some p => ret p
               | None =>
                   exec load_global "Path" ;;
                   exec load_global "wandb" ;;
                   do dir <- wandb_run_dir ;;
                   ret (Pathlib.of_str dir)
               end ;;
  let model_path := Pathlib.truediv model_dir (model_file epoch) in
  exec invoke (CSave algo model_path) ;;
  ret VNone.

Definition close (self : Addr) : Py PyVal :=
  do run <- get_run self ;;
  exec invoke (CFinish run) ;;
  ret VNone.

End LoggerWanDBAdapter.

(** ** class WanDBAdapterFactory *)
Module WanDBAdapterFactory.

(** [super().__init__()] reaches the base class of the logger module,
    which stores nothing in the two attributes set here. *)
Definition __init__ (project : option string) (model_dir : option Path)
    : Py Addr :=
  new (OFactory project model_dir).

Definition create (self : Addr) (experiment_name : string) : Py Addr :=
  do '(project, model_dir) <- get_factory self ;;
  LoggerWanDBAdapter.__init__ project model_dir (Some experiment_name).

End WanDBAdapterFactory.

(** ** Auxiliary predicates used in the statements *)

(** Does the character occur in the string? *)
Fixpoint occurs (c : Ascii.ascii) (s : string) : bool :=
  match s with
  | EmptyString => false
  | String c' s' => Ascii.eqb c' c || occurs c s'
  end.

(** The outcome of a method that forwards one call [c] and then falls off
    its end: [None], unless the collaborator raises, in which case the
    exception propagates unchanged. *)
Definition forwarded (W : Client) (s : State) (c : Call) : Outcome PyVal :=
  match call_raises W (calls s) c with
  | Some e => Raised e
  | None => Returned VNone
  end.

(** ** Sample collaborators and inputs *)

(** A client that is installed, never fails, and numbers its runs by the
    position of the [init] call among all calls. *)
Definition counting_client : Client :=
  MkClient None (fun before _ _ => inr (length before))
           (fun _ => inr "/tmp/wandb/run/files") (fun _ _ => None).

(** A client that answers every [init] with the run that is already
    active in the process (run 0), as [wandb.init] does when it is not asked
    to start a new one. *)
Definition sticky_client : Client :=
  MkClient None (fun _ _ _ => inr 0%nat)
           (fun _ => inr "/tmp/wandb/run/files") (fun _ _ => None).

(** An import failure raised by a subclass of [ImportError] that is
    neither [ImportError] nor [ModuleNotFoundError] itself. *)
Definition package_not_found : Exn :=
  Exc (OtherError "PackageNotFoundError" [ModuleNotFoundError])
      "No package metadata was found for wandb".

(** An environment where the [wandb] package is not installed. *)
Definition module_not_found : Exn :=
  Exc ModuleNotFoundError "No module named 'wandb'".

Definition absent_client : Client :=
  MkClient (Some module_not_found) (fun before _ _ => inr (length before))
           (fun _ => inr "/tmp/wandb/run/files") (fun _ _ => None).

(** The floats [0.5] and [0.001] (binary64 bit patterns). *)
Definition float_0_5 : float64 := Float64 4602678819172646912.
Definition float_0_001 : float64 := Float64 4562254508917369340.

(** A state holding one adapter (run 7) at address 0, with and without a
    model directory. *)
Definition adapter_out : State :=
  MkState [OAdapter 7%nat (Some (Pathlib.of_str "/out"))] [].

Definition adapter_default : State := MkState [OAdapter 7%nat None] [].

(** A state holding one factory at address 0. *)
Definition factory_only : State :=
  MkState [OFactory (Some "cartpole") (Some (Pathlib.of_str "/out"))] [].

(** ** Callers

    The adapter is driven from outside the module; these are the call
    sequences its interface is made for, written against the methods
    above. *)

(** [update], [log], [finish] and [save] never raise. *)
Definition quiet (W : Client) : Prop :=
  forall before c, call_raises W before c = None.

(** One metric written between its two hooks. *)
Definition commit_metric (self : Addr) (epoch step : Z) (name : string)
    (value : float64) : Py PyVal :=
  exec LoggerWanDBAdapter.before_write_metric self epoch step ;;
  do v <- LoggerWanDBAdapter.write_metric self epoch step name value ;;
  exec LoggerWanDBAdapter.after_write_metric self epoch step ;;
  ret v.

(** A whole run: create the adapter, log the hyperparameters, one metric
    and one checkpoint, then close. *)
Definition training_run (f : Addr) (experiment_name : string) (params : Dict)
    (epoch step : Z) (name : string) (value : float64) (algo : AlgoRef)
    : Py PyVal :=
  do a <- WanDBAdapterFactory.create f experiment_name ;;
  exec LoggerWanDBAdapter.write_params a params ;;
  exec commit_metric a epoch step name value ;;
  exec LoggerWanDBAdapter.save_model a epoch algo ;;
  LoggerWanDBAdapter.close a.

(** An exception that is not an [ImportError], and a client whose import
    fails with it. *)
Definition broken_install : Exn :=
  Exc AttributeError "module 'google.protobuf' has no attribute 'descriptor'".

Definition broken_client : Client :=
  MkClient (Some broken_install) (fun before _ _ => inr (length before))
           (fun _ => inr "/tmp/wandb/run/files") (fun _ _ => None).

(** A client whose [init] fails (no network). *)
Definition comm_error : Exn :=
  Exc (OtherError "CommError" []) "network unreachable".

Definition offline_client : Client :=
  MkClient None (fun _ _ _ => inl comm_error)
           (fun _ => inr "/tmp/wandb/run/files") (fun _ _ => None).

(** * Properties *)

Import LoggerWanDBAdapter.

(** ** The checkpoint file name is a single path component *)

Lemma occurs_append c s t : occurs c (s +:+ t) = occurs c s || occurs c t.
Proof.
  induction s as [|a s IH]; simpl; [done|].
  by rewrite IH, orb_assoc.
Qed.

Lemma digits_no_slash d :
  occurs Pathlib.slash (NilEmpty.string_of_uint d) = false.
Proof. induction d; simpl; auto. Qed.

Lemma uint_no_slash d :
  occurs Pathlib.slash (NilZero.string_of_uint d) = false.
Proof. destruct d; first done; apply (digits_no_slash (_ d)). Qed.

Lemma str_int_no_slash n : occurs Pathlib.slash (str_int n) = false.
Proof.
  unfold str_int.
  destruct n as [|p|p]; simpl; auto using uint_no_slash.
Qed.

Lemma split_on_absent c s : occurs c s = false -> Pathlib.split_on c s = [s].
Proof.
  induction s as [|a s IH]; simpl; [done|].
  intros [Ha Hs]%orb_false_iff.
  by rewrite Ha, (IH Hs).
Qed.

Lemma model_file_component epoch :
  Pathlib.of_str (model_file epoch) = Pathlib.MkPath "" [model_file epoch].
Proof.
  assert (Hs : occurs Pathlib.slash (model_file epoch) = false).
  { unfold model_file. rewrite !occurs_append, str_int_no_slash. done. }
  unfold Pathlib.of_str.
  change (Pathlib.splitroot (model_file epoch)) with ("", model_file epoch).
  cbv beta iota. rewrite (split_on_absent _ _ Hs).
  done.
Qed.

Lemma truediv_model_file dir epoch :
  Pathlib.truediv dir (model_file epoch) =
  Pathlib.MkPath (Pathlib.root dir) (Pathlib.parts dir ++ [model_file epoch]).
Proof. unfold Pathlib.truediv. by rewrite model_file_component. Qed.

(** ** Running the primitives *)

Lemma run_invoke W s c :
  invoke c W s =
  (match call_raises W (calls s) c with
   | Some e => Raised e
   | None => Returned tt
   end,
   MkState (heap s) (calls s ++ [c])).
Proof.
  unfold invoke, bind, record, raise, ret.
  by destruct (call_raises W (calls s) c).
Qed.

Lemma run_get_run W s self r d :
  heap s !! self = Some (OAdapter r d) -> get_run self W s = (Returned r, s).
Proof. unfold get_run. by intros ->. Qed.

Lemma run_get_model_dir W s self r d :
  heap s !! self = Some (OAdapter r d) ->
  get_model_dir self W s = (Returned d, s).
Proof. unfold get_model_dir. by intros ->. Qed.

(** A method body of the shape [self.run.<op>(...)]. *)
Lemma run_forward W s self r d (op : RunHandle -> Call) :
  heap s !! self = Some (OAdapter r d) ->
  (do run <- get_run self ;; exec invoke (op run) ;; ret VNone) W s =
  (forwarded W s (op r), MkState (heap s) (calls s ++ [op r])).
Proof.
  intros H. unfold bind at 1. rewrite (run_get_run _ _ _ _ _ H).
  unfold bind, forwarded. rewrite run_invoke.
  by destruct (call_raises W (calls s) (op r)).
Qed.

(** ** write_params, write_metric, close *)

(** C7: [write_params(params)] makes exactly one call, the run handle's
    config update, with exactly the mapping it was given; it changes no
    object and returns [None] (an exception of the update propagates). *)
Theorem write_params_forwards_mapping W s self r d (params : Dict) :
  heap s !! self = Some (OAdapter r d) ->
  let res := write_params self params W s in
  calls res.2 = calls s ++ [CConfigUpdate r params] /\
  heap res.2 = heap s /\
  res.1 = forwarded W s (CConfigUpdate r params).
Proof.
  intros H res. subst res. unfold write_params.
  by rewrite (run_forward _ _ _ _ _ (fun run => CConfigUpdate run params) H).
Qed.

Lemma write_params_forwards_mapping_witness :
  heap adapter_default !! 0%nat = Some (OAdapter 7%nat None) /\
  let res := write_params 0%nat {[ "lr" := VFloat float_0_001 ]}
               counting_client adapter_default in
  calls res.2 = [CConfigUpdate 7%nat {[ "lr" := VFloat float_0_001 ]}] /\
  heap res.2 = heap adapter_default /\
  res.1 = Returned VNone.
Proof.
  split; [reflexivity|].
  apply (write_params_forwards_mapping counting_client adapter_default
           0%nat 7%nat None {[ "lr" := VFloat float_0_001 ]}).
  reflexivity.
Defined.

(** C2: [write_metric(epoch, step, name, value)] makes exactly one call,
    the run handle's [log], at step [step]; its payload is the mapping
    [{name: value, "epoch": epoch}]: ["epoch"] maps to [epoch], [name] (when
    it is another key) to [value], and nothing else is present. *)
Theorem write_metric_logs_once W s self r d epoch step name value :
  heap s !! self = Some (OAdapter r d) ->
  let payload : Dict := <["epoch" := VInt epoch]> {[ name := VFloat value ]} in
  let res := write_metric self epoch step name value W s in
  calls res.2 = calls s ++ [CLog r payload step] /\
  heap res.2 = heap s /\
  res.1 = forwarded W s (CLog r payload step) /\
  payload !! "epoch" = Some (VInt epoch) /\
  (name <> "epoch" -> payload !! name = Some (VFloat value)) /\
  (forall k, k <> name -> k <> "epoch" -> payload !! k = None).
Proof.
  intros H payload res. subst res. unfold write_metric.
  rewrite (run_forward _ _ _ _ _
             (fun run => CLog run
                (<["epoch" := VInt epoch]> (<[name := VFloat value]> ∅)) step)
             H).
  repeat split; subst payload.
  - apply lookup_insert_eq.
  - intros Hne. rewrite lookup_insert_ne by done. apply lookup_singleton_eq.
  - intros k Hk He. rewrite lookup_insert_ne by done.
    by apply lookup_singleton_ne.
Qed.

Lemma write_metric_logs_once_witness :
  heap adapter_default !! 0%nat = Some (OAdapter 7%nat None) /\
  let res := write_metric 0%nat 3 100 "loss" float_0_5
               counting_client adapter_default in
  calls res.2 =
    [CLog 7%nat {[ "loss" := VFloat float_0_5; "epoch" := VInt 3 ]} 100] /\
  res.1 = Returned VNone.
Proof.
  split; [reflexivity|].
  pose proof (write_metric_logs_once counting_client adapter_default
                0%nat 7%nat None 3 100 "loss" float_0_5 eq_refl)
    as (Hcalls & _ & Hres & _).
  split; [exact Hcalls | exact Hres].
Defined.

(** C9: with [name = "epoch"] the payload is the one-key mapping
    [{"epoch": epoch}]: the log call is the same whatever [value] is. *)
Theorem write_metric_epoch_key_overwritten W s self r d epoch step value :
  heap s !! self = Some (OAdapter r d) ->
  let payload : Dict := {[ "epoch" := VInt epoch ]} in
  let res := write_metric self epoch step "epoch" value W s in
  calls res.2 = calls s ++ [CLog r payload step] /\
  res.1 = forwarded W s (CLog r payload step) /\
  (forall k v, payload !! k = Some v -> k = "epoch" /\ v = VInt epoch) /\
  (forall value',
     write_metric self epoch step "epoch" value' W s = res).
Proof.
  intros H payload res.
  assert (Hrun : forall v,
    write_metric self epoch step "epoch" v W s =
    (forwarded W s (CLog r payload step),
     MkState (heap s) (calls s ++ [CLog r payload step]))).
  { intros v. unfold write_metric.
    rewrite (run_forward _ _ _ _ _
               (fun run => CLog run
                  (<["epoch" := VInt epoch]> (<["epoch" := VFloat v]> ∅)) step)
               H).
    subst payload. by rewrite insert_insert_eq, insert_empty. }
  subst res. rewrite Hrun. do 2 (split; [done|]). split.
  - by intros k v [-> ->]%lookup_singleton_Some.
  - intros v'. apply Hrun.
Qed.

Lemma write_metric_epoch_key_overwritten_witness :
  heap adapter_default !! 0%nat = Some (OAdapter 7%nat None) /\
  let res := write_metric 0%nat 3 100 "epoch" float_0_5
               counting_client adapter_default in
  calls res.2 = [CLog 7%nat {[ "epoch" := VInt 3 ]} 100] /\
  res.1 = Returned VNone.
Proof.
  split; [reflexivity|].
  pose proof (write_metric_epoch_key_overwritten counting_client
                adapter_default 0%nat 7%nat None 3 100 float_0_5 eq_refl)
    as (Hcalls & Hres & _).
  split; [exact Hcalls | exact Hres].
Defined.

(** C6: [close()] makes exactly one call, [finish] on the held run handle,
    and no other; it changes no object and returns [None] (an exception of
    [finish] propagates). *)
Theorem close_finishes_once W s self r d :
  heap s !! self = Some (OAdapter r d) ->
  let res := close self W s in
  calls res.2 = calls s ++ [CFinish r] /\
  heap res.2 = heap s /\
  res.1 = forwarded W s (CFinish r) /\
  (forall v, res.1 = Returned v -> v = VNone).
Proof.
  intros H res. subst res. unfold close.
  rewrite (run_forward _ _ _ _ _ CFinish H). simpl.
  repeat split. unfold forwarded.
  destruct (call_raises W (calls s) (CFinish r)); congruence.
Qed.

Lemma close_finishes_once_witness :
  heap adapter_default !! 0%nat = Some (OAdapter 7%nat None) /\
  let res := close 0%nat counting_client adapter_default in
  calls res.2 = [CFinish 7%nat] /\
  heap res.2 = heap adapter_default /\
  res.1 = Returned VNone.
Proof.
  split; [reflexivity|].
  pose proof (close_finishes_once counting_client adapter_default
                0%nat 7%nat None eq_refl) as (Hcalls & Hheap & Hres & _).
  split; [exact Hcalls|]. split; [exact Hheap | exact Hres].
Defined.

(** ** save_model *)

Lemma append_assoc (a b c : string) : (a +:+ b) +:+ c = a +:+ (b +:+ c).
Proof.
  induction a as [|x a IH]; [done|].
  change (String x ((a +:+ b) +:+ c) = String x (a +:+ (b +:+ c))).
  by rewrite IH.
Qed.

Lemma join_parts_snoc l x :
  l <> [] -> Pathlib.join_parts (l ++ [x]) = Pathlib.join_parts l +:+ "/" +:+ x.
Proof.
  induction l as [|y l IH]; [done|]. intros _.
  destruct l as [|z l]; [done|].
  change (Pathlib.join_parts ((y :: z :: l) ++ [x]))
    with (y +:+ "/" +:+ Pathlib.join_parts ((z :: l) ++ [x])).
  rewrite IH by done.
  change (Pathlib.join_parts (y :: z :: l))
    with (y +:+ "/" +:+ Pathlib.join_parts (z :: l)).
  by rewrite !append_assoc.
Qed.

Lemma to_str_nonempty p :
  Pathlib.parts p <> [] ->
  Pathlib.to_str p = Pathlib.root p +:+ Pathlib.join_parts (Pathlib.parts p).
Proof.
  destruct p as [r [|y l]]; [done|]. intros _.
  unfold Pathlib.to_str. cbn [Pathlib.root Pathlib.parts]. by destruct r.
Qed.

Lemma to_str_child r l x :
  l <> [] ->
  Pathlib.to_str (Pathlib.MkPath r (l ++ [x])) =
  Pathlib.to_str (Pathlib.MkPath r l) +:+ "/" +:+ x.
Proof.
  intros Hl. rewrite !to_str_nonempty; cbn [Pathlib.root Pathlib.parts].
  - by rewrite (join_parts_snoc _ _ Hl), append_assoc.
  - done.
  - by destruct l.
Qed.

Lemma run_save_model_configured W s self r dir epoch algo :
  heap s !! self = Some (OAdapter r (Some dir)) ->
  let path :=
    Pathlib.MkPath (Pathlib.root dir) (Pathlib.parts dir ++ [model_file epoch]) in
  save_model self epoch algo W s =
  (forwarded W s (CSave algo path),
   MkState (heap s) (calls s ++ [CSave algo path])).
Proof.
  intros H path. unfold save_model, bind at 1.
  rewrite (run_get_model_dir _ _ _ _ _ H).
  unfold bind, ret, forwarded. rewrite run_invoke, truediv_model_file.
  fold path. by destruct (call_raises W (calls s) (CSave algo path)).
Qed.

Lemma run_save_model_default W s self r epoch algo :
  heap s !! self = Some (OAdapter r None) ->
  save_model self epoch algo W s =
  (Raised (Exc NameError "name 'wandb' is not defined"), s).
Proof.
  intros H. unfold save_model, bind at 1.
  by rewrite (run_get_model_dir _ _ _ _ _ H).
Qed.

Lemma run_save_model_no_adapter W s self epoch algo :
  (forall r d, heap s !! self <> Some (OAdapter r d)) ->
  save_model self epoch algo W s = (Raised (no_attribute "model_dir"), s).
Proof.
  intros H. unfold save_model, bind at 1, get_model_dir.
  destruct (heap s !! self) as [[r d|p d]|] eqn:E; try done.
  by destruct (H r d).
Qed.

(** C3: with a model directory configured, [save_model(epoch, algo)] makes
    exactly one call, [algo.save], with the path made of the directory
    followed by the single component [model_<epoch>.d3]; as a string this
    is [<model_dir>/model_<epoch>.d3] for every directory that has at
    least one component. *)
Theorem save_model_configured_dir W s self r dir epoch algo :
  heap s !! self = Some (OAdapter r (Some dir)) ->
  let file := "model_" +:+ str_int epoch +:+ ".d3" in
  let path := Pathlib.MkPath (Pathlib.root dir) (Pathlib.parts dir ++ [file]) in
  let res := save_model self epoch algo W s in
  calls res.2 = calls s ++ [CSave algo path] /\
  heap res.2 = heap s /\
  res.1 = forwarded W s (CSave algo path) /\
  (Pathlib.parts dir <> [] ->
   Pathlib.to_str path = Pathlib.to_str dir +:+ "/" +:+ file).
Proof.
  intros H file path res. subst res.
  rewrite (run_save_model_configured _ _ _ _ _ _ _ H).
  do 3 (split; [done|]).
  intros Hparts. subst path. destruct dir as [rt l]. simpl in *.
  by apply to_str_child.
Qed.

Lemma save_model_configured_dir_witness :
  heap adapter_out !! 0%nat =
    Some (OAdapter 7%nat (Some (Pathlib.of_str "/out"))) /\
  let res := save_model 0%nat 5 42%nat counting_client adapter_out in
  (exists path,
     calls res.2 = [CSave 42%nat path] /\
     Pathlib.to_str path = "/out/model_5.d3") /\
  res.1 = Returned VNone.
Proof.
  split; [reflexivity|].
  pose proof (save_model_configured_dir counting_client adapter_out
                0%nat 7%nat (Pathlib.of_str "/out") 5 42%nat eq_refl)
    as (Hcalls & _ & Hres & Hstr).
  split; [|exact Hres].
  eexists. split; [exact Hcalls|]. reflexivity.
Defined.

(** C1 (the code departs from it): without a model directory,
    [save_model] stops at the name [wandb], which is bound only inside
    [__init__]: it raises [NameError] before any default directory is read
    and before [algo.save] is called, leaving the state as it was. *)
Theorem save_model_default_dir_name_error W s self r epoch algo :
  heap s !! self = Some (OAdapter r None) ->
  let res := save_model self epoch algo W s in
  res.1 = Raised (Exc NameError "name 'wandb' is not defined") /\
  res.2 = s.
Proof.
  intros H res. subst res.
  by rewrite (run_save_model_default _ _ _ _ _ _ H).
Qed.

Lemma save_model_default_dir_name_error_witness :
  heap adapter_default !! 0%nat = Some (OAdapter 7%nat None) /\
  let res := save_model 0%nat 5 42%nat counting_client adapter_default in
  res.1 = Raised (Exc NameError "name 'wandb' is not defined") /\
  res.2 = adapter_default.
Proof.
  split; [reflexivity|].
  apply (save_model_default_dir_name_error counting_client adapter_default
           0%nat 7%nat 5 42%nat).
  reflexivity.
Defined.

(** C10 (the code departs from its last part): [save_model] changes no
    object and makes no call on the run handle: whatever it adds to the
    calls is at most one [algo.save].  But without a model directory it
    adds nothing at all and raises [NameError], so the single [algo.save]
    call of the claim is missing there. *)
Theorem save_model_run_handle_untouched W s self epoch algo :
  let res := save_model self epoch algo W s in
  heap res.2 = heap s /\
  (exists new,
     calls res.2 = calls s ++ new /\
     (length new <= 1)%nat /\
     forall c, c ∈ new -> exists path, c = CSave algo path) /\
  (forall r,
     heap s !! self = Some (OAdapter r None) ->
     calls res.2 = calls s /\
     res.1 = Raised (Exc NameError "name 'wandb' is not defined")).
Proof.
  intros res. subst res.
  destruct (heap s !! self) as [[r [dir|]|p d]|] eqn:E.
  - rewrite (run_save_model_configured _ _ _ _ _ _ _ E).
    cbn [fst snd heap calls]. split; [done|]. split; [|done].
    eexists [_]. split; [done|]. split; [done|].
    intros c ->%list_elem_of_singleton. by eexists.
  - rewrite (run_save_model_default _ _ _ _ _ _ E).
    cbn [fst snd]. split; [done|]. split.
    + exists []. rewrite app_nil_r. split; [done|]. split; [simpl; lia|].
      by intros c ?%not_elem_of_nil.
    + done.
  - rewrite run_save_model_no_adapter by (intros; congruence).
    cbn [fst snd]. split; [done|]. split; [|done].
    exists []. rewrite app_nil_r. split; [done|]. split; [simpl; lia|].
    by intros c ?%not_elem_of_nil.
  - rewrite run_save_model_no_adapter by (intros; congruence).
    cbn [fst snd]. split; [done|]. split; [|done].
    exists []. rewrite app_nil_r. split; [done|]. split; [simpl; lia|].
    by intros c ?%not_elem_of_nil.
Qed.

Lemma save_model_run_handle_untouched_witness :
  heap adapter_default !! 0%nat = Some (OAdapter 7%nat None) /\
  let res := save_model 0%nat 5 42%nat counting_client adapter_default in
  calls res.2 = [] /\
  res.1 = Raised (Exc NameError "name 'wandb' is not defined").
Proof.
  split; [reflexivity|].
  exact (proj2 (proj2 (save_model_run_handle_untouched counting_client
                         adapter_default 0%nat 5 42%nat))
           7%nat eq_refl).
Defined.

(** ** The constructor *)

Lemma run_init_absent W s project model_dir name e :
  import_wandb W = Some e -> is_ImportError e = true ->
  __init__ project model_dir name W s =
  (Raised (ExcFrom ImportError "Please install wandb" e), s).
Proof.
  intros Hi He. unfold __init__, bind, import_guard. by rewrite Hi, He.
Qed.

Lemma run_init_present W s project model_dir name :
  import_wandb W = None ->
  __init__ project model_dir name W s =
  match init_reply W (calls s) project name with
  | inl e => (Raised e, MkState (heap s) (calls s ++ [CInit project name]))
  | inr r => (Returned (length (heap s)),
              MkState (heap s ++ [OAdapter r model_dir])
                      (calls s ++ [CInit project name]))
  end.
Proof.
  intros Hi. unfold __init__, bind at 1, import_guard. rewrite Hi.
  unfold ret at 1, bind at 1, wandb_init, bind, record, new. simpl.
  by destruct (init_reply W (calls s) project name).
Qed.

(** C4: when [import wandb] fails with an [ImportError], the constructor
    raises [ImportError("Please install wandb")] whose cause is that
    failure, and makes no call (no run is started); when the import
    succeeds, the constructor itself calls [wandb.init], and the instance
    it yields holds the run that call returned. *)
Theorem constructor_requires_wandb W s project model_dir name :
  let res := __init__ project model_dir name W s in
  (forall e,
     import_wandb W = Some e -> is_ImportError e = true ->
     res.1 = Raised (ExcFrom ImportError "Please install wandb" e) /\
     res.2 = s) /\
  (import_wandb W = None ->
   calls res.2 = calls s ++ [CInit project name] /\
   forall r,
     init_reply W (calls s) project name = inr r ->
     res.1 = Returned (length (heap s)) /\
     heap res.2 = heap s ++ [OAdapter r model_dir]).
Proof.
  intros res. subst res. split.
  - intros e Hi He. by rewrite (run_init_absent _ _ _ _ _ _ Hi He).
  - intros Hi. rewrite (run_init_present _ _ _ _ _ Hi).
    destruct (init_reply W (calls s) project name) as [e|r]; simpl.
    + split; [done|]. congruence.
    + split; [done|]. by intros ? [= <-].
Qed.

Lemma constructor_requires_wandb_witness :
  (import_wandb absent_client = Some module_not_found /\
   is_ImportError module_not_found = true /\
   let res := __init__ (Some "cartpole") None (Some "run-a")
                absent_client (MkState [] []) in
   res.1 = Raised (ExcFrom ImportError "Please install wandb"
                     module_not_found) /\
   res.2 = MkState [] []) /\
  (import_wandb counting_client = None /\
   let res := __init__ (Some "cartpole") None (Some "run-a")
                counting_client (MkState [] []) in
   calls res.2 = [CInit (Some "cartpole") (Some "run-a")] /\
   res.1 = Returned 0%nat /\
   heap res.2 = [OAdapter 0%nat None]).
Proof.
  split.
  - do 2 (split; [reflexivity|]).
    exact (proj1 (constructor_requires_wandb absent_client (MkState [] [])
                    (Some "cartpole") None (Some "run-a"))
             module_not_found eq_refl eq_refl).
  - split; [reflexivity|].
    destruct (proj2 (constructor_requires_wandb counting_client
                       (MkState [] []) (Some "cartpole") None (Some "run-a"))
                eq_refl) as [Hcalls Hrun].
    split; [exact Hcalls|]. exact (Hrun 0%nat eq_refl).
Defined.

(** ** The factory *)

Lemma run_create W s f project model_dir name :
  heap s !! f = Some (OFactory project model_dir) ->
  WanDBAdapterFactory.create f name W s =
  __init__ project model_dir (Some name) W s.
Proof.
  intros H. unfold WanDBAdapterFactory.create, bind at 1, get_factory.
  by rewrite H.
Qed.

Lemma run_create_returns W s f project model_dir name r :
  heap s !! f = Some (OFactory project model_dir) ->
  import_wandb W = None ->
  init_reply W (calls s) project (Some name) = inr r ->
  WanDBAdapterFactory.create f name W s =
  (Returned (length (heap s)),
   MkState (heap s ++ [OAdapter r model_dir])
           (calls s ++ [CInit project (Some name)])).
Proof.
  intros Hf Hi Hr.
  by rewrite (run_create _ _ _ _ _ _ Hf), (run_init_present _ _ _ _ _ Hi), Hr.
Qed.

(** C5, as the code has it: two calls of [create] on one factory, the
    second in any later state, each make their own [wandb.init] call with
    the factory's project and the given name, and each return a new object:
    the two adapters are distinct instances, both hold the factory's model
    directory, and each holds the run that its own [init] call returned. *)
Theorem create_twice_own_init_call
    W s f project model_dir name1 name2 r1 r2 s' :
  heap s !! f = Some (OFactory project model_dir) ->
  import_wandb W = None ->
  let res1 := WanDBAdapterFactory.create f name1 W s in
  init_reply W (calls s) project (Some name1) = inr r1 ->
  heap res1.2 `prefix_of` heap s' ->
  calls res1.2 `prefix_of` calls s' ->
  let res2 := WanDBAdapterFactory.create f name2 W s' in
  init_reply W (calls s') project (Some name2) = inr r2 ->
  exists a1 a2,
    res1.1 = Returned a1 /\ res2.1 = Returned a2 /\
    heap s !! a1 = None /\ heap s' !! a2 = None /\ a1 <> a2 /\
    heap res2.2 !! a1 = Some (OAdapter r1 model_dir) /\
    heap res2.2 !! a2 = Some (OAdapter r2 model_dir) /\
    calls res1.2 = calls s ++ [CInit project (Some name1)] /\
    calls res2.2 = calls s' ++ [CInit project (Some name2)].
Proof.
  intros Hf Hi res1 Hr1. subst res1.
  rewrite (run_create_returns _ _ _ _ _ _ _ Hf Hi Hr1). cbn [fst snd heap calls].
  intros Hheap Hcalls Hr2.
  assert (Hf' : heap s' !! f = Some (OFactory project model_dir)).
  { eapply prefix_lookup_Some; [|exact Hheap].
    apply lookup_app_l_Some, Hf. }
  assert (Ha1 : heap s' !! length (heap s) = Some (OAdapter r1 model_dir)).
  { eapply prefix_lookup_Some; [|exact Hheap]. apply list_lookup_middle. done. }
  rewrite (run_create_returns _ _ _ _ _ _ _ Hf' Hi Hr2).
  cbn [fst snd heap calls].
  exists (length (heap s)), (length (heap s')).
  do 2 (split; [done|]).
  split; [by apply lookup_ge_None_2|].
  split; [by apply lookup_ge_None_2|].
  pose proof (lookup_lt_Some _ _ _ Ha1) as Hlt.
  split; [lia|].
  split; [by apply lookup_app_l_Some|].
  split; [by apply list_lookup_middle|].
  done.
Qed.

Lemma create_twice_own_init_call_witness :
  let res1 := WanDBAdapterFactory.create 0%nat "run-a"
                counting_client factory_only in
  let res2 := WanDBAdapterFactory.create 0%nat "run-b"
                counting_client res1.2 in
  res1.1 = Returned 1%nat /\ res2.1 = Returned 2%nat /\
  heap res2.2 !! 1%nat =
    Some (OAdapter 0%nat (Some (Pathlib.of_str "/out"))) /\
  heap res2.2 !! 2%nat =
    Some (OAdapter 1%nat (Some (Pathlib.of_str "/out"))) /\
  calls res2.2 = [CInit (Some "cartpole") (Some "run-a");
                  CInit (Some "cartpole") (Some "run-b")].
Proof.
  intros res1 res2.
  destruct (create_twice_own_init_call counting_client factory_only 0%nat
              (Some "cartpole") (Some (Pathlib.of_str "/out"))
              "run-a" "run-b" 0%nat 1%nat res1.2
              eq_refl eq_refl eq_refl
              ltac:(reflexivity) ltac:(reflexivity) eq_refl)
    as (a1 & a2 & H1 & H2 & _ & _ & _ & Hh1 & Hh2 & _ & Hc).
  injection H1 as <-. injection H2 as <-.
  split; [reflexivity|]. split; [reflexivity|].
  split; [exact Hh1|]. split; [exact Hh2|]. exact Hc.
Defined.

(** C5, where it fails: [create] passes [wandb.init] nothing that asks
    for a new run, so with a client that answers [init] with the run
    already active, the two adapters made by [create("run-a")] and
    [create("run-b")] are distinct objects holding one and the same run
    handle. *)
Lemma create_twice_shared_run :
  let res1 := WanDBAdapterFactory.create 0%nat "run-a"
                sticky_client factory_only in
  let res2 := WanDBAdapterFactory.create 0%nat "run-b"
                sticky_client res1.2 in
  res1.1 = Returned 1%nat /\ res2.1 = Returned 2%nat /\
  calls res2.2 = [CInit (Some "cartpole") (Some "run-a");
                  CInit (Some "cartpole") (Some "run-b")] /\
  exists run model_dir,
    heap res2.2 !! 1%nat = Some (OAdapter run model_dir) /\
    heap res2.2 !! 2%nat = Some (OAdapter run model_dir).
Proof.
  intros res1 res2. do 3 (split; [reflexivity|]).
  by exists 0%nat, (Some (Pathlib.of_str "/out")).
Qed.

(** ** No method assigns an attribute *)

Lemma heap_forward W s self (op : RunHandle -> Call) :
  heap ((do run <- get_run self ;; exec invoke (op run) ;; ret VNone) W s).2 =
  heap s.
Proof.
  unfold bind at 1, get_run.
  destruct (heap s !! self) as [[r d|p d]|]; try done.
  unfold ret at 1, bind. rewrite run_invoke.
  by destruct (call_raises W (calls s) (op r)).
Qed.

Lemma heap_save_model W s self epoch algo :
  heap (save_model self epoch algo W s).2 = heap s.
Proof.
  destruct (heap s !! self) as [[r [dir|]|p d]|] eqn:E.
  - by rewrite (run_save_model_configured _ _ _ _ _ _ _ E).
  - by rewrite (run_save_model_default _ _ _ _ _ _ E).
  - by rewrite run_save_model_no_adapter by (intros; congruence).
  - by rewrite run_save_model_no_adapter by (intros; congruence).
Qed.

Lemma heap_init W s project model_dir name :
  heap s `prefix_of` heap (__init__ project model_dir name W s).2.
Proof.
  destruct (import_wandb W) as [e|] eqn:Hi.
  - unfold __init__, bind, import_guard. rewrite Hi.
    by destruct (is_ImportError e).
  - rewrite (run_init_present _ _ _ _ _ Hi).
    destruct (init_reply W (calls s) project name); simpl; [done|].
    by apply prefix_app_r.
Qed.

(** C8: none of [write_params], [before_write_metric], [write_metric],
    [after_write_metric], [save_model] and [close] changes any object, so
    the adapter's [run] and [model_dir] stay as its constructor set them;
    the factory's constructor stores its two arguments, and [create] only
    adds the new adapter: every object that existed before, the factory
    included, is as it was. *)
Theorem attributes_assigned_once
    W s self f epoch step name value params algo experiment_name
    project model_dir :
  heap (write_params self params W s).2 = heap s /\
  heap (before_write_metric self epoch step W s).2 = heap s /\
  heap (write_metric self epoch step name value W s).2 = heap s /\
  heap (after_write_metric self epoch step W s).2 = heap s /\
  heap (save_model self epoch algo W s).2 = heap s /\
  heap (close self W s).2 = heap s /\
  WanDBAdapterFactory.__init__ project model_dir W s =
    (Returned (length (heap s)),
     MkState (heap s ++ [OFactory project model_dir]) (calls s)) /\
  heap s `prefix_of` heap (WanDBAdapterFactory.create f experiment_name W s).2.
Proof.
  split; [apply (heap_forward _ _ _ (fun run => CConfigUpdate run params))|].
  split; [done|].
  split; [apply (heap_forward _ _ _ (fun run => CLog run _ step))|].
  split; [done|].
  split; [apply heap_save_model|].
  split; [apply (heap_forward _ _ _ CFinish)|].
  split; [done|].
  unfold WanDBAdapterFactory.create, bind at 1, get_factory.
  destruct (heap s !! f) as [[r d|p d]|]; try done.
  apply heap_init.
Qed.


(** * Further properties *)

(** ** Failures around construction *)

(** Every subclass of [ImportError] is caught, not only the two builtin
    classes: a [PackageNotFoundError] (a [ModuleNotFoundError]) raised by
    the import comes out wrapped, like any other [ImportError]. *)
Lemma subclass_import_failure_is_wrapped s project model_dir name :
  __init__ project model_dir name
    (MkClient (Some package_not_found) (fun before _ _ => inr (length before))
              (fun _ => inr "") (fun _ _ => None)) s =
  (Raised (ExcFrom ImportError "Please install wandb" package_not_found), s).
Proof. by apply run_init_absent. Qed.

(** X1: an import failure whose class is neither [ImportError] nor derived
    from it is not caught by the [except ImportError] clause: the
    constructor raises that very exception, unwrapped, and makes no
    call. *)
Theorem constructor_other_import_failure W s project model_dir name e :
  import_wandb W = Some e -> is_ImportError e = false ->
  __init__ project model_dir name W s = (Raised e, s).
Proof.
  intros Hi He. unfold __init__, bind, import_guard. by rewrite Hi, He.
Qed.

Lemma constructor_other_import_failure_witness :
  import_wandb broken_client = Some broken_install /\
  is_ImportError broken_install = false /\
  __init__ (Some "cartpole") None (Some "run-a") broken_client (MkState [] [])
  = (Raised broken_install, MkState [] []).
Proof.
  do 2 (split; [reflexivity|]).
  apply (constructor_other_import_failure broken_client (MkState [] [])
           (Some "cartpole") None (Some "run-a") broken_install);
    reflexivity.
Defined.

(** X2: when [wandb.init] raises, [create] lets the exception through
    unchanged; the [init] call was made, and no adapter exists
    afterwards. *)
Theorem create_init_failure W s f project model_dir name e :
  heap s !! f = Some (OFactory project model_dir) ->
  import_wandb W = None ->
  init_reply W (calls s) project (Some name) = inl e ->
  WanDBAdapterFactory.create f name W s =
  (Raised e, MkState (heap s) (calls s ++ [CInit project (Some name)])).
Proof.
  intros Hf Hi He.
  by rewrite (run_create _ _ _ _ _ _ Hf), (run_init_present _ _ _ _ _ Hi), He.
Qed.

Lemma create_init_failure_witness :
  heap factory_only !! 0%nat =
    Some (OFactory (Some "cartpole") (Some (Pathlib.of_str "/out"))) /\
  import_wandb offline_client = None /\
  init_reply offline_client (calls factory_only) (Some "cartpole")
    (Some "run-a") = inl comm_error /\
  WanDBAdapterFactory.create 0%nat "run-a" offline_client factory_only =
  (Raised comm_error,
   MkState (heap factory_only) [CInit (Some "cartpole") (Some "run-a")]).
Proof.
  do 3 (split; [reflexivity|]).
  apply (create_init_failure offline_client factory_only 0%nat
           (Some "cartpole") (Some (Pathlib.of_str "/out")) "run-a" comm_error);
    reflexivity.
Defined.

(** X3: the factory's constructor never touches [wandb]: it succeeds and
    makes no call even where [wandb] is not installed; the
    [ImportError("Please install wandb")] only appears at [create], which
    then makes no call either. *)
Theorem factory_fails_lazily W s project model_dir name e :
  import_wandb W = Some e -> is_ImportError e = true ->
  let made := WanDBAdapterFactory.__init__ project model_dir W s in
  made.1 = Returned (length (heap s)) /\
  calls made.2 = calls s /\
  WanDBAdapterFactory.create (length (heap s)) name W made.2 =
  (Raised (ExcFrom ImportError "Please install wandb" e), made.2).
Proof.
  intros Hi He made. subst made.
  unfold WanDBAdapterFactory.__init__, new. cbn [fst snd calls].
  do 2 (split; [done|]).
  rewrite (run_create _ _ _ project model_dir).
  - by apply run_init_absent.
  - cbn [heap]. by apply list_lookup_middle.
Qed.

Lemma factory_fails_lazily_witness :
  import_wandb absent_client = Some module_not_found /\
  is_ImportError module_not_found = true /\
  let made := WanDBAdapterFactory.__init__ (Some "cartpole") None
                absent_client (MkState [] []) in
  made.1 = Returned 0%nat /\
  calls made.2 = [] /\
  WanDBAdapterFactory.create 0%nat "run-a" absent_client made.2 =
  (Raised (ExcFrom ImportError "Please install wandb" module_not_found),
   made.2).
Proof.
  do 2 (split; [reflexivity|]).
  apply (factory_fails_lazily absent_client (MkState [] [])
           (Some "cartpole") None "run-a" module_not_found);
    reflexivity.
Defined.

(** ** No closed state *)

Lemma run_close W s self r d :
  heap s !! self = Some (OAdapter r d) ->
  close self W s =
  (forwarded W s (CFinish r), MkState (heap s) (calls s ++ [CFinish r])).
Proof. intros H. unfold close. by rewrite (run_forward _ _ _ _ _ CFinish H). Qed.

Lemma run_write_params W s self r d params :
  heap s !! self = Some (OAdapter r d) ->
  write_params self params W s =
  (forwarded W s (CConfigUpdate r params),
   MkState (heap s) (calls s ++ [CConfigUpdate r params])).
Proof.
  intros H. unfold write_params.
  by rewrite (run_forward _ _ _ _ _ (fun run => CConfigUpdate run params) H).
Qed.

Lemma run_write_metric W s self r d epoch step name value :
  heap s !! self = Some (OAdapter r d) ->
  let c := CLog r (<["epoch" := VInt epoch]> {[ name := VFloat value ]}) step in
  write_metric self epoch step name value W s =
  (forwarded W s c, MkState (heap s) (calls s ++ [c])).
Proof.
  intros H c. unfold write_metric.
  by rewrite (run_forward _ _ _ _ _
                (fun run => CLog run
                   (<["epoch" := VInt epoch]> (<[name := VFloat value]> ∅)) step)
                H).
Qed.

(** X4: the adapter keeps no record of having been closed: after
    [close()], a second [close()] calls [finish] again and [write_metric]
    still calls [log], both on the same run handle. *)
Theorem close_is_not_remembered W s self r d epoch step name value :
  heap s !! self = Some (OAdapter r d) ->
  let closed := (close self W s).2 in
  calls (close self W closed).2 = calls s ++ [CFinish r; CFinish r] /\
  calls (write_metric self epoch step name value W closed).2 =
    calls s ++ [CFinish r;
                CLog r (<["epoch" := VInt epoch]> {[ name := VFloat value ]})
                     step].
Proof.
  intros H closed. subst closed. rewrite (run_close _ _ _ _ _ H).
  cbn [snd]. split.
  - rewrite (run_close _ _ _ r d) by done. cbn [snd calls].
    by rewrite <- app_assoc.
  - rewrite (run_write_metric _ _ _ r d) by done. cbn [snd calls].
    by rewrite <- app_assoc.
Qed.

Lemma close_is_not_remembered_witness :
  heap adapter_default !! 0%nat = Some (OAdapter 7%nat None) /\
  let closed := (close 0%nat counting_client adapter_default).2 in
  calls (close 0%nat counting_client closed).2 =
    [CFinish 7%nat; CFinish 7%nat] /\
  calls (write_metric 0%nat 3 100 "loss" float_0_5 counting_client closed).2 =
    [CFinish 7%nat;
     CLog 7%nat {[ "loss" := VFloat float_0_5; "epoch" := VInt 3 ]} 100].
Proof.
  split; [reflexivity|].
  exact (close_is_not_remembered counting_client adapter_default
           0%nat 7%nat None 3 100 "loss" float_0_5 eq_refl).
Defined.

(** ** Checkpoint paths *)

Lemma to_int_proper n :
  Z.to_int n <> Decimal.Pos Decimal.Nil /\ Z.to_int n <> Decimal.Neg Decimal.Nil.
Proof.
  destruct n as [|p|p]; simpl; split; try done;
    intros [= H]; by apply (Unsigned.to_uint_nonnil p).
Qed.

Lemma str_int_inj n m : str_int n = str_int m -> n = m.
Proof.
  unfold str_int. intros H. apply DecimalZ.to_int_inj.
  destruct (to_int_proper n) as [Hn1 Hn2], (to_int_proper m) as [Hm1 Hm2].
  pose proof (NilZero.isi _ Hn1 Hn2) as En.
  pose proof (NilZero.isi _ Hm1 Hm2) as Em.
  rewrite H in En. congruence.
Qed.

Lemma length_append (a b : string) :
  String.length (a +:+ b) = (String.length a + String.length b)%nat.
Proof.
  induction a as [|x a IH]; [done|].
  change (S (String.length (a +:+ b)) = S (String.length a + String.length b)).
  by rewrite IH.
Qed.

Lemma append_cancel_r (a b c : string) : a +:+ c = b +:+ c -> a = b.
Proof.
  revert b. induction a as [|x a IH]; intros [|y b] H; [done|..].
  - apply (f_equal String.length) in H.
    change (String.length c = S (String.length (b +:+ c))) in H.
    rewrite length_append in H. lia.
  - apply (f_equal String.length) in H.
    change (S (String.length (a +:+ c)) = String.length c) in H.
    rewrite length_append in H. lia.
  - change (String x (a +:+ c) = String y (b +:+ c)) in H.
    injection H as -> H. by rewrite (IH _ H).
Qed.

Lemma model_file_inj e1 e2 : model_file e1 = model_file e2 -> e1 = e2.
Proof.
  unfold model_file. intros H. apply str_int_inj.
  apply (append_cancel_r _ _ ".d3").
  set (t1 := str_int e1 +:+ ".d3") in *. set (t2 := str_int e2 +:+ ".d3") in *.
  change ("model_" +:+ t1) with
    (String "m" (String "o" (String "d" (String "e" (String "l"
       (String "_" t1)))))) in H.
  change ("model_" +:+ t2) with
    (String "m" (String "o" (String "d" (String "e" (String "l"
       (String "_" t2)))))) in H.
  by injection H.
Qed.

(** X5: checkpoints of different epochs never share a path: for an
    adapter with a model directory, two [save_model] calls with different
    epochs pass different paths to [algo.save]. *)
Theorem save_model_epochs_do_not_collide
    W s s' self r dir e1 e2 algo algo' :
  heap s !! self = Some (OAdapter r (Some dir)) ->
  heap s' !! self = Some (OAdapter r (Some dir)) ->
  e1 <> e2 ->
  exists path1 path2,
    calls (save_model self e1 algo W s).2 = calls s ++ [CSave algo path1] /\
    calls (save_model self e2 algo' W s').2 = calls s' ++ [CSave algo' path2] /\
    path1 <> path2.
Proof.
  intros H H' Hne.
  rewrite (run_save_model_configured _ _ _ _ _ _ _ H).
  rewrite (run_save_model_configured _ _ _ _ _ _ _ H').
  cbn [snd calls]. do 2 eexists. do 2 (split; [done|]).
  intros [= Hp]. apply app_inj_tail in Hp as [_ Hp].
  by apply Hne, model_file_inj.
Qed.

Lemma save_model_epochs_do_not_collide_witness :
  heap adapter_out !! 0%nat =
    Some (OAdapter 7%nat (Some (Pathlib.of_str "/out"))) /\
  5 <> 6 /\
  exists path1 path2,
    calls (save_model 0%nat 5 42%nat counting_client adapter_out).2 =
      [CSave 42%nat path1] /\
    calls (save_model 0%nat 6 42%nat counting_client adapter_out).2 =
      [CSave 42%nat path2] /\
    path1 <> path2.
Proof.
  split; [reflexivity|]. split; [lia|].
  apply (save_model_epochs_do_not_collide counting_client adapter_out
           adapter_out 0%nat 7%nat (Pathlib.of_str "/out") 5 6 42%nat 42%nat);
    [reflexivity | reflexivity | lia].
Defined.

(** X6: the experiment name does not enter the checkpoint path: two
    adapters made by one factory that has a model directory are distinct
    objects, yet for the same epoch both pass the same path to
    [algo.save]. *)
Theorem factory_adapters_share_checkpoint_path
    W s f project dir name1 name2 r1 r2 epoch algo1 algo2 :
  heap s !! f = Some (OFactory project (Some dir)) ->
  import_wandb W = None ->
  init_reply W (calls s) project (Some name1) = inr r1 ->
  init_reply W (calls s ++ [CInit project (Some name1)]) project (Some name2)
    = inr r2 ->
  let made1 := WanDBAdapterFactory.create f name1 W s in
  let made2 := WanDBAdapterFactory.create f name2 W made1.2 in
  let path :=
    Pathlib.MkPath (Pathlib.root dir) (Pathlib.parts dir ++ [model_file epoch]) in
  exists a1 a2,
    made1.1 = Returned a1 /\ made2.1 = Returned a2 /\ a1 <> a2 /\
    calls (save_model a1 epoch algo1 W made2.2).2 =
      calls made2.2 ++ [CSave algo1 path] /\
    calls (save_model a2 epoch algo2 W made2.2).2 =
      calls made2.2 ++ [CSave algo2 path].
Proof.
  intros Hf Hi Hr1 Hr2 made1 made2 path. subst made2 made1.
  rewrite (run_create_returns _ _ _ _ _ _ _ Hf Hi Hr1). cbn [snd].
  rewrite (run_create_returns _ _ _ project (Some dir) _ r2);
    [|by apply lookup_app_l_Some|done|done].
  cbn [fst snd heap calls].
  exists (length (heap s)), (length (heap s ++ [OAdapter r1 (Some dir)])).
  do 2 (split; [done|]).
  split; [rewrite length_app; simpl; lia|].
  split.
  - rewrite (run_save_model_configured _ _ _ r1 dir); [done|].
    cbn [heap]. apply lookup_app_l_Some. by apply list_lookup_middle.
  - rewrite (run_save_model_configured _ _ _ r2 dir); [done|].
    cbn [heap]. by apply list_lookup_middle.
Qed.

Lemma factory_adapters_share_checkpoint_path_witness :
  let made1 := WanDBAdapterFactory.create 0%nat "run-a"
                 counting_client factory_only in
  let made2 := WanDBAdapterFactory.create 0%nat "run-b"
                 counting_client made1.2 in
  exists a1 a2,
    made1.1 = Returned a1 /\ made2.1 = Returned a2 /\ a1 <> a2 /\
    calls (save_model a1 5 42%nat counting_client made2.2).2 =
      calls made2.2 ++
      [CSave 42%nat (Pathlib.MkPath "/" ["out"; "model_5.d3"])] /\
    calls (save_model a2 5 43%nat counting_client made2.2).2 =
      calls made2.2 ++
      [CSave 43%nat (Pathlib.MkPath "/" ["out"; "model_5.d3"])].
Proof.
  exact (factory_adapters_share_checkpoint_path counting_client factory_only
           0%nat (Some "cartpole") (Pathlib.of_str "/out") "run-a" "run-b"
           0%nat 1%nat 5 42%nat 43%nat eq_refl eq_refl eq_refl eq_refl).
Defined.

(** ** The metric hooks and a whole run *)

Lemma run_commit_metric W s self epoch step name value :
  commit_metric self epoch step name value W s =
  write_metric self epoch step name value W s.
Proof.
  unfold commit_metric, before_write_metric, after_write_metric, bind.
  unfold ret at 1.
  by destruct (write_metric self epoch step name value W s) as [[v|e] s1].
Qed.

(** X7: the two hooks make no call and change nothing: writing a metric
    between [before_write_metric] and [after_write_metric] has exactly the
    result and the effects of [write_metric] alone, also when it raises. *)
Theorem hooks_do_nothing W s self epoch step name value :
  commit_metric self epoch step name value W s =
  write_metric self epoch step name value W s.
Proof. apply run_commit_metric. Qed.

Lemma forwarded_quiet W s c : quiet W -> forwarded W s c = Returned VNone.
Proof. intros Hq. unfold forwarded. by rewrite Hq. Qed.

Lemma bind_returned {A B} (m : Py A) (k : A -> Py B) W s a s1 :
  m W s = (Returned a, s1) -> bind m k W s = k a W s1.
Proof. intros H. unfold bind. by rewrite H. Qed.

(** X8: a whole run against collaborators that do not fail makes five
    calls, in this order: [wandb.init] with the factory's project and the
    experiment name, then [config.update], [log] and [finish] on the run
    that [init] returned, with [algo.save] under the factory's model
    directory before [finish]; it returns [None] and leaves one new
    object, the adapter. *)
Theorem training_run_calls
    W s f project dir experiment_name params epoch step name value algo r :
  heap s !! f = Some (OFactory project (Some dir)) ->
  import_wandb W = None ->
  init_reply W (calls s) project (Some experiment_name) = inr r ->
  quiet W ->
  training_run f experiment_name params epoch step name value algo W s =
  (Returned VNone,
   MkState
     (heap s ++ [OAdapter r (Some dir)])
     (calls s ++
      [ CInit project (Some experiment_name);
        CConfigUpdate r params;
        CLog r (<["epoch" := VInt epoch]> {[ name := VFloat value ]}) step;
        CSave algo (Pathlib.MkPath (Pathlib.root dir)
                      (Pathlib.parts dir ++ [model_file epoch]));
        CFinish r ])).
Proof.
  intros Hf Hi Hr Hq. unfold training_run.
  rewrite (bind_returned _ _ _ _ _ _ (run_create_returns _ _ _ _ _ _ _ Hf Hi Hr)).
  set (a := length (heap s)).
  assert (Ha : forall cs,
    heap (MkState (heap s ++ [OAdapter r (Some dir)]) cs) !! a =
    Some (OAdapter r (Some dir))).
  { intros cs. cbn [heap]. by apply list_lookup_middle. }
  erewrite bind_returned;
    [|rewrite (run_write_params _ _ _ _ _ _ (Ha _)), forwarded_quiet by done;
      reflexivity].
  cbn [heap calls].
  erewrite bind_returned;
    [|rewrite run_commit_metric,
        (run_write_metric _ _ _ _ _ _ _ _ _ (Ha _)), forwarded_quiet by done;
      reflexivity].
  cbn [heap calls].
  erewrite bind_returned;
    [|rewrite (run_save_model_configured _ _ _ _ _ _ _ (Ha _)),
        forwarded_quiet by done;
      reflexivity].
  cbn [heap calls].
  rewrite (run_close _ _ _ _ _ (Ha _)), forwarded_quiet by done.
  cbn [heap calls]. by rewrite <- !app_assoc.
Qed.

Lemma counting_client_quiet : quiet counting_client.
Proof. by intros before c. Qed.

Lemma training_run_calls_witness :
  training_run 0%nat "run-a" {[ "lr" := VFloat float_0_001 ]} 3 100 "loss"
    float_0_5 42%nat counting_client factory_only =
  (Returned VNone,
   MkState
     [ OFactory (Some "cartpole") (Some (Pathlib.of_str "/out"));
       OAdapter 0%nat (Some (Pathlib.of_str "/out")) ]
     [ CInit (Some "cartpole") (Some "run-a");
       CConfigUpdate 0%nat {[ "lr" := VFloat float_0_001 ]};
       CLog 0%nat {[ "loss" := VFloat float_0_5; "epoch" := VInt 3 ]} 100;
       CSave 42%nat (Pathlib.MkPath "/" ["out"; "model_3.d3"]);
       CFinish 0%nat ]).
Proof.
  exact (training_run_calls counting_client factory_only 0%nat
           (Some "cartpole") (Pathlib.of_str "/out") "run-a"
           {[ "lr" := VFloat float_0_001 ]} 3 100 "loss" float_0_5 42%nat
           0%nat eq_refl eq_refl eq_refl counting_client_quiet).
Defined.
